(** * The voice-chat upload handler of gradio_app/app.py

    A shallow embedding of [voice_chat] (app.py, lines 21-133) and of the
    parts of the Python runtime it relies on: exceptions with the class tests
    of its [except] clauses, early [return], [try]/[except], the [with]
    statement over a file, [os.path], [int] and [str] on numbers.

    The handler talks to four external collaborators: the progress sink, the
    WAV codec ([scipy.io.wavfile.write]), the filesystem and the HTTP client
    ([requests.post]).  Their behaviour is a parameter of the model
    ([Collaborators]); every call that reaches one of them is recorded in a
    trace, so that statements such as "no network call occurs" can be read
    off the final world.

    Calls to [logger] and the [datetime.now()] stamp that is only logged do
    not influence the returned pair and are left out, as is the
    [Content-Type] header, which the handler reads for logging only. *)

From Stdlib Require Import ZArith QArith String Ascii List Strings.Byte.
From Stdlib Require Import DecimalString DecimalZ DecimalPos Lia.
From stdpp Require Import base option list gmap strings.

Local Open Scope Z_scope.
Local Open Scope string_scope.

(** ** Python runtime *)

Module Py.

(** The classes an exception can belong to, as far as the [except] clauses of
    the handler tell them apart.  In [requests.exceptions], [ConnectTimeout]
    derives from both [ConnectionError] and [Timeout]; [ReadTimeout] derives
    from [Timeout] only.  [KeyboardInterrupt], [SystemExit] and
    [GeneratorExit] derive from [BaseException] but not from [Exception]. *)
Inductive exn_class : Type :=
| CTimeout          (* requests.exceptions.Timeout, ReadTimeout *)
| CConnectTimeout   (* requests.exceptions.ConnectTimeout *)
| CConnectionError  (* requests.exceptions.ConnectionError, not a timeout *)
| CException        (* any other subclass of Exception *)
| CBaseException.   (* BaseException outside Exception *)

Record exn : Type := Exn { exn_cls : exn_class; exn_str : string }.

Definition isinstance_Timeout (e : exn) : bool :=
  match exn_cls e with CTimeout | CConnectTimeout => true | _ => false end.

Definition isinstance_ConnectionError (e : exn) : bool :=
  match exn_cls e with CConnectTimeout | CConnectionError => true | _ => false end.

Definition isinstance_Exception (e : exn) : bool :=
  match exn_cls e with CBaseException => false | _ => true end.

(** A bare [except:] clause. *)
Definition isinstance_BaseException (e : exn) : bool := true.

(** How a statement ends: normally, by a [return] of the enclosing function,
    or with an exception on its way up. *)
Inductive completion (R A : Type) : Type :=
| Normal (a : A)
| Returned (r : R)
| Raised (e : exn).
Arguments Normal {R A} a.
Arguments Returned {R A} r.
Arguments Raised {R A} e.

Section Stmt.
Context {S R : Type}.

(** Statements of a function returning [R], run over a state [S]. *)
Definition stmt (A : Type) : Type := S → completion R A * S.

Definition pure {A} (a : A) : stmt A := λ s, (Normal a, s).

Definition bind {A B} (f : A → stmt B) (m : stmt A) : stmt B :=
  λ s, match m s with
       | (Normal a, s') => f a s'
       | (Returned r, s') => (Returned r, s')
       | (Raised e, s') => (Raised e, s')
       end.

Definition return_ {A} (r : R) : stmt A := λ s, (Returned r, s).

Definition raise {A} (e : exn) : stmt A := λ s, (Raised e, s).

Definition get_state : stmt S := λ s, (Normal s, s).

Definition modify (f : S → S) : stmt unit := λ s, (Normal tt, f s).

(** The first clause whose class test accepts the exception handles it. *)
Fixpoint find_clause {A} (clauses : list ((exn → bool) * (exn → stmt A)))
    (e : exn) : option (stmt A) :=
  match clauses with
  | [] => None
  | (test, handler) :: rest =>
      if test e then Some (handler e) else find_clause rest e
  end.

(** [try: body except E1: h1 except E2 as e: h2 ...]; a [return] inside
    [body] leaves the [try] untouched, there being no [finally]. *)
Definition try_except {A} (body : stmt A)
    (clauses : list ((exn → bool) * (exn → stmt A))) : stmt A :=
  λ s, match body s with
       | (Raised e, s') =>
           match find_clause clauses e with
           | Some handler => handler s'
           | None => (Raised e, s')
           end
       | other => other
       end.
End Stmt.

Arguments stmt : clear implicits.

#[global] Instance stmt_ret {S R} : MRet (stmt S R) := @pure S R.
#[global] Instance stmt_bind {S R} : MBind (stmt S R) := @bind S R.

(** What the caller of a function sees.  A body of type [stmt S R Empty_set]
    cannot fall off its end. *)
Inductive outcome (R : Type) : Type :=
| Returns (r : R)
| Escapes (e : exn).
Arguments Returns {R} r.
Arguments Escapes {R} e.

Definition call {S R} (body : stmt S R Empty_set) (s : S) : outcome R * S :=
  match body s with
  | (Normal a, _) => match a with end
  | (Returned r, s') => (Returns r, s')
  | (Raised e, s') => (Escapes e, s')
  end.

(** [str(n)] for an integer. *)
Definition str_int (n : Z) : string := NilZero.string_of_int (Z.to_int n).

(** [int(x)] for a finite float, which is a rational: truncation towards
    zero. *)
Definition int_float (x : Q) : Z := Z.quot (Qnum x) (Z.pos (Qden x)).

Definition startswith (prefix s : string) : bool :=
  String.prefix prefix s.

Definition endswith (suffix s : string) : bool :=
  let n := String.length s in
  let k := String.length suffix in
  (k <=? n)%nat && String.eqb (String.substring (n - k) k s) suffix.

(** [posixpath.join] with two arguments. *)
Definition os_path_join (a b : string) : string :=
  if startswith "/" b then b
  else if String.eqb a "" || endswith "/" a then a +:+ b
  else a +:+ "/" +:+ b.

End Py.
Import Py.

(** ** The world outside the handler *)

(** A captured clip, as the recording surface hands it over:
    [(sample_rate, samples)].  Being a pair of a rate and an array, it can
    always be unpacked ([sr, audio_data = audio]) and asked for its shape. *)
Definition CapturedAudio : Type := (Z * list Z)%type.

(** The value of a field of a decoded JSON object, as far as the handler
    looks at it: it is only ever put through [str()] by an f-string.  For a
    JSON string that is its text; for any other value [JOther] carries the
    text [str()] gives. *)
Inductive json_field : Type :=
| JStr (text : string)
| JOther (str_text : string).

Definition str_field (v : json_field) : string :=
  match v with JStr s => s | JOther s => s end.

(** A decoded JSON document: an object, which has [.get], or anything else
    (array, string, number, boolean, null), which has not. *)
Inductive json_doc : Type :=
| JDict (fields : gmap string json_field)
| JNotDict.

(** A [requests.Response]: [response_json] is what [response.json()] does
    on this response, the decoded body or the decoder's exception. *)
Record Response : Type := {
  status_code : Z;
  content : list byte;
  response_json : exn + json_doc
}.

Inductive event : Type :=
| EvProgress (fraction : Q) (desc : string)
| EvWavWrite (path : string) (rate : Z) (samples : list Z)
| EvOpen (path mode : string)
| EvWrite (path : string) (data : list byte)
| EvPost (url field filename : string) (body : list byte) (mime : string)
    (timeout : Z).

Record World : Type := {
  files : gmap string (list byte);
  trace : list event
}.

Definition record (ev : event) (w : World) : World :=
  {| files := files w; trace := (trace w ++ [ev])%list |}.

Definition set_files (fs : gmap string (list byte)) (w : World) : World :=
  {| files := fs; trace := trace w |}.

(** The behaviour of the collaborators.  Each is a function of the world at
    the time of the call (so it may depend on everything that happened
    before) and of the arguments of the call. *)
Record Collaborators : Type := {
  (** [time.time()] *)
  time_time : World → Q;
  (** [tempfile.gettempdir()] *)
  gettempdir : string;
  (** [progress(fraction, desc=...)]: [Some e] when the sink raises [e] *)
  progress_raises : World → Q → string → option exn;
  (** [scipy.io.wavfile.write(path, rate, data)]: the files it leaves
      behind, and the exception it raises, if any *)
  wavfile_write : World → string → Z → list Z →
                  gmap string (list byte) * option exn;
  (** [open(path, mode)] failing for a reason of the system's own
      (permissions, quota, ...) *)
  open_raises : World → string → string → option exn;
  (** [f.write(data)], with the flush on leaving the [with] block, failing *)
  write_raises : World → string → list byte → option exn;
  (** [f.write(data)] returning normally although the bytes do not reach the
      file, as when the path is a link to [/dev/null]: nothing is raised and
      the file is as empty as [open] left it *)
  write_dropped : World → string → list byte → bool;
  (** [requests.post(url, files={field: (filename, f, mime)}, timeout=...)] *)
  requests_post : World → string → string → string → list byte → string →
                  Z → exn + Response
}.

Definition FileNotFoundError (path : string) : exn :=
  Exn CException ("[Errno 2] No such file or directory: '" +:+ path +:+ "'").

Section Handler.
Variable env : Collaborators.

(** Statements of a function returning [(path or None, message)]. *)
Definition result : Type := (option string * string)%type.
Abbreviation M := (stmt World result).

Definition progress (fraction : Q) (desc : string) : M unit :=
  w ← get_state;
  modify (record (EvProgress fraction desc));;
  match progress_raises env w fraction desc with
  | Some e => raise e
  | None => mret tt
  end.

Definition now : M Q :=
  w ← get_state; mret (time_time env w).

Definition scipy_io_wavfile_write (path : string) (rate : Z)
    (data : list Z) : M unit :=
  w ← get_state;
  modify (record (EvWavWrite path rate data));;
  let '(fs, err) := wavfile_write env w path rate data in
  modify (set_files fs);;
  match err with
  | Some e => raise e
  | None => mret tt
  end.

Definition os_path_exists (path : string) : M bool :=
  w ← get_state; mret (bool_decide (is_Some (files w !! path))).

Definition os_path_getsize (path : string) : M Z :=
  w ← get_state;
  match files w !! path with
  | Some data => mret (Z.of_nat (length data))
  | None => raise (FileNotFoundError path)
  end.

(** [with open(path, "rb") as f: body]; [f] stands for the bytes the
    reader of [f] gets. *)
Definition with_open_rb {A} (path : string) (body : list byte → M A) : M A :=
  w ← get_state;
  modify (record (EvOpen path "rb"));;
  match open_raises env w path "rb" with
  | Some e => raise e
  | None =>
      match files w !! path with
      | None => raise (FileNotFoundError path)
      | Some data => body data
      end
  end.

(** [with open(path, "wb") as f: body]: the file is created or truncated;
    [f] stands for the path written to. *)
Definition with_open_wb {A} (path : string) (body : string → M A) : M A :=
  w ← get_state;
  modify (record (EvOpen path "wb"));;
  match open_raises env w path "wb" with
  | Some e => raise e
  | None => modify (λ w, set_files (<[path := []]> (files w)) w);; body path
  end.

Definition file_write (path : string) (data : list byte) : M unit :=
  w ← get_state;
  modify (record (EvWrite path data));;
  match write_raises env w path data with
  | Some e => raise e
  | None =>
      if write_dropped env w path data then mret tt
      else
        modify (λ w, set_files
          (<[path := (default [] (files w !! path) ++ data)%list]> (files w))
          w)
  end.

Definition post (url field filename : string) (f : list byte)
    (mime : string) (timeout : Z) : M Response :=
  w ← get_state;
  modify (record (EvPost url field filename f mime timeout));;
  match requests_post env w url field filename f mime timeout with
  | inl e => raise e
  | inr response => mret response
  end.

(** [response.json()] *)
Definition json (response : Response) : M json_doc :=
  match response_json response with
  | inl e => raise e
  | inr doc => mret doc
  end.

(** [d.get(key, fallback)]; a value that is not a dict has no [get]. *)
Definition dict_get (d : json_doc) (key : string) (fallback : json_field)
    : M json_field :=
  match d with
  | JDict fields => mret (default fallback (fields !! key))
  | JNotDict => raise (Exn CException "object has no attribute 'get'")
  end.

Definition API_URL : string := "http://localhost:8000/voice-chat".
Definition REQUEST_TIMEOUT : Z := 300.

Definition msg_no_audio : string := "⚠️ Mohon rekam suara terlebih dahulu".
Definition msg_input_not_saved : string := "⚠️ Gagal menyimpan file audio".
Definition msg_timeout : string :=
  "🕒 Waktu permintaan habis. Server membutuhkan waktu terlalu lama untuk merespons.".
Definition msg_connection : string :=
  "🔌 Tidak dapat terhubung ke server. Pastikan server berjalan di http://localhost:8000".
Definition msg_empty_response : string := "⚠️ Server mengembalikan respons kosong".
Definition msg_output_invalid : string :=
  "⚠️ File audio respons kosong atau tidak valid".
Definition msg_success : string := "✅ Berhasil mendapatkan respons".

Definition input_filename (t : Q) : string :=
  "input_" +:+ str_int (int_float t) +:+ ".wav".

Definition output_filename (t : Q) : string :=
  "tts_output_" +:+ str_int (int_float t) +:+ ".wav".

Definition status_text (code : Z) : string :=
  "Kode status: " +:+ str_int code.

(** The body of [voice_chat(audio, progress)]. *)
Definition voice_chat_body (audio : option CapturedAudio) : M Empty_set :=
  match audio with
  | None => return_ (None, msg_no_audio)
  | Some (sr, audio_data) =>
    progress 0 "Memproses suara...";;
    try_except
      (t ← now;
       let audio_filename := input_filename t in
       let audio_path := os_path_join (gettempdir env) audio_filename in
       scipy_io_wavfile_write audio_path sr audio_data;;
       saved ← os_path_exists audio_path;
       (if negb saved then return_ (None, msg_input_not_saved) else mret tt);;
       progress (3 # 10) "Mengirim ke server...";;
       response ← try_except
         (with_open_rb audio_path (λ f,
            post API_URL "file" audio_filename f "audio/wav" REQUEST_TIMEOUT))
         [ (isinstance_Timeout, λ _, return_ (None, msg_timeout));
           (isinstance_ConnectionError, λ _, return_ (None, msg_connection));
           (isinstance_Exception,
              λ e, return_ (None, "🔴 Error: " +:+ exn_str e)) ];
       progress (7 # 10) "Mendapatkan balasan...";;
       if (status_code response =? 200)%Z then
         (match content response with
          | [] => return_ (None, msg_empty_response)
          | _ => mret tt
          end);;
         t' ← now;
         let output_audio_path :=
           os_path_join (gettempdir env) (output_filename t') in
         try_except
           (with_open_wb output_audio_path (λ f,
              file_write f (content response));;
            present ← os_path_exists output_audio_path;
            if negb present then return_ (None, msg_output_invalid)
            else
              size ← os_path_getsize output_audio_path;
              if (size =? 0)%Z then return_ (None, msg_output_invalid)
              else mret tt)
           [ (isinstance_Exception,
                λ e, return_ (None,
                  "⚠️ Gagal menyimpan file audio respons: " +:+ exn_str e)) ];;
         progress 1 "Selesai!";;
         return_ (Some output_audio_path, msg_success)
       else
         error_detail ← try_except
           (error_content ←
              (match content response with
               | [] => mret (JDict ∅)
               | _ => json response
               end);
            dict_get error_content "message"
              (JStr (status_text (status_code response))))
           [ (isinstance_BaseException,
                λ _, mret (JStr (status_text (status_code response)))) ];
         return_ (None, "⚠️ Server Error: " +:+ str_field error_detail))
      [ (isinstance_Exception,
           λ e, return_ (None, "⚠️ Terjadi kesalahan: " +:+ exn_str e)) ]
  end.

(** A call [voice_chat(audio, progress)]. *)
Definition voice_chat (audio : option CapturedAudio) (w : World)
    : outcome result * World :=
  call (voice_chat_body audio) w.
End Handler.


(** ** Reading a run off the final world *)

(** The calls made between two worlds of one run. *)
Definition since (w w' : World) : list event :=
  drop (length (trace w)) (trace w').

Definition is_network_call (ev : event) : bool :=
  match ev with EvPost _ _ _ _ _ _ => true | _ => false end.

(** Writes of the handler's own, which only ever go to the output file. *)
Definition is_output_write (ev : event) : bool :=
  match ev with
  | EvOpen _ mode => String.eqb mode "wb"
  | EvWrite _ _ => true
  | _ => false
  end.

Definition is_file_write (ev : event) : bool :=
  match ev with
  | EvWavWrite _ _ _ => true
  | _ => is_output_write ev
  end.

Definition none_of (p : event → bool) (evs : list event) : bool :=
  forallb (λ ev, negb (p ev)) evs.

(** [needle] occurs in [hay]. *)
Definition contains (needle hay : string) : Prop :=
  ∃ before after, hay = before +:+ needle +:+ after.

(** The structured message field of an error body, in the words of the
    specification: the body parses as structured data and has a [message]
    field.  An empty body has none. *)
Definition message_field (r : Response) : option json_field :=
  match content r, response_json r with
  | _ :: _, inr (JDict fields) => fields !! "message"
  | _, _ => None
  end.

(** ** Assumptions on the collaborators, for the claims that make them *)

Definition sink_accepts (env : Collaborators) : Prop :=
  ∀ w q d, progress_raises env w q d = None.

(** The codec returns normally and leaves a file at the path it was given. *)
Definition codec_saves (env : Collaborators) : Prop :=
  ∀ w p sr d, (wavfile_write env w p sr d).2 = None
              ∧ is_Some ((wavfile_write env w p sr d).1 !! p).

(** The codec returns normally, yet no file is at the path afterwards. *)
Definition codec_leaves_nothing (env : Collaborators) : Prop :=
  ∀ w p sr d, (wavfile_write env w p sr d).2 = None
              ∧ (wavfile_write env w p sr d).1 !! p = None.

Definition files_open (env : Collaborators) : Prop :=
  ∀ w p mode, open_raises env w p mode = None.

(** Nothing is raised and the bytes reach the file. *)
Definition writes_land (env : Collaborators) : Prop :=
  ∀ w p data, write_raises env w p data = None
              ∧ write_dropped env w p data = false.

Definition server_answers (env : Collaborators) (r : Response) : Prop :=
  ∀ w url field name body mime timeout,
    requests_post env w url field name body mime timeout = inr r.

Definition post_raises (env : Collaborators) (e : exn) : Prop :=
  ∀ w url field name body mime timeout,
    requests_post env w url field name body mime timeout = inl e.

(** Whatever a collaborator raises derives from [Exception]. *)
Definition raises_only_exceptions (env : Collaborators) : Prop :=
  (∀ w q d e, progress_raises env w q d = Some e → isinstance_Exception e = true)
  ∧ (∀ w p sr d e, (wavfile_write env w p sr d).2 = Some e →
                   isinstance_Exception e = true)
  ∧ (∀ w p mode e, open_raises env w p mode = Some e →
                   isinstance_Exception e = true)
  ∧ (∀ w p data e, write_raises env w p data = Some e →
                   isinstance_Exception e = true)
  ∧ (∀ w url field name body mime timeout e,
       requests_post env w url field name body mime timeout = inl e →
       isinstance_Exception e = true).

(** ** The order of the calls *)

Definition is_report (fraction : Q) (desc : string) (ev : event) : bool :=
  match ev with
  | EvProgress q d => Qeq_bool q fraction && String.eqb d desc
  | _ => false
  end.

Definition is_encode (ev : event) : bool :=
  match ev with EvWavWrite _ _ _ => true | _ => false end.

Definition is_open (mode : string) (ev : event) : bool :=
  match ev with EvOpen _ m => String.eqb m mode | _ => false end.

Definition is_write (ev : event) : bool :=
  match ev with EvWrite _ _ => true | _ => false end.

(** The one upload the handler makes: to the fixed URL, as form field
    [file], declared as [audio/wav], with the fixed time-out. *)
Definition is_upload (ev : event) : bool :=
  match ev with
  | EvPost url field _ _ mime timeout =>
      String.eqb url API_URL && String.eqb field "file"
      && String.eqb mime "audio/wav" && (timeout =? REQUEST_TIMEOUT)%Z
  | _ => false
  end.

(** The calls of a run that goes all the way, in the order of the source
    (lines 30, 42, 49, 54, 56, 80, 99, 100, 115). *)
Definition protocol : list (event → bool) :=
  [ is_report 0 "Memproses suara...";
    is_encode;
    is_report (3 # 10) "Mengirim ke server...";
    is_open "rb";
    is_upload;
    is_report (7 # 10) "Mendapatkan balasan...";
    is_open "wb";
    is_write;
    is_report 1 "Selesai!" ].

(** [evs] goes through [steps] from the start, as far as it goes. *)
Fixpoint follows (steps : list (event → bool)) (evs : list event) : bool :=
  match evs, steps with
  | [], _ => true
  | ev :: evs', step :: steps' => step ev && follows steps' evs'
  | _ :: _, [] => false
  end.

(** ** Further assumptions on the collaborators *)

(** The codec raises [e]. *)
Definition codec_raises (env : Collaborators) (e : exn) : Prop :=
  ∀ w p sr d, (wavfile_write env w p sr d).2 = Some e.

Definition opens (env : Collaborators) (mode : string) : Prop :=
  ∀ w p, open_raises env w p mode = None.

Definition open_fails (env : Collaborators) (mode : string) (e : exn) : Prop :=
  ∀ w p, open_raises env w p mode = Some e.

Definition write_fails (env : Collaborators) (e : exn) : Prop :=
  ∀ w p data, write_raises env w p data = Some e.

(** Nothing is raised, and the bytes do not reach the file. *)
Definition writes_are_dropped (env : Collaborators) : Prop :=
  ∀ w p data, write_raises env w p data = None
              ∧ write_dropped env w p data = true.

(** The sink takes every report but the one of completion, on which it
    raises [e]. *)
Definition sink_fails_on_completion (env : Collaborators) (e : exn) : Prop :=
  ∀ w q d, progress_raises env w q d = if Qeq_bool q 1 then Some e else None.

(** ** The page around the handler (app.py, lines 439-443 and 545-575) *)

(** [gr.update(visible=...)]: an update that sets the visibility of the
    component it is sent to and nothing else. *)
Record Update : Type := { visible : bool }.

(** [recording_state(recording=False)] *)
Definition recording_state (recording : bool) : Update * Update :=
  if recording then ({| visible := true |}, {| visible := false |})
  else ({| visible := false |}, {| visible := true |}).

(** The two indicators of the recording panel, by their visibility. *)
Record Indicators : Type := {
  ready_indicator : bool;
  recording_active : bool
}.

(** As the page is built: [ready_indicator] with [visible=True],
    [recording_active] with [visible=False]. *)
Definition initial_indicators : Indicators :=
  {| ready_indicator := true; recording_active := false |}.

Inductive recording_event : Type := start_recording | stop_recording.

(** Both listeners have [outputs=[recording_active, ready_indicator]]: the
    first update goes to [recording_active], the second to
    [ready_indicator]. *)
Definition send_updates (updates : Update * Update) (s : Indicators)
    : Indicators :=
  {| ready_indicator := visible updates.2;
     recording_active := visible updates.1 |}.

Definition on_recording_event (s : Indicators) (ev : recording_event)
    : Indicators :=
  match ev with
  | start_recording => send_updates (recording_state true) s
  | stop_recording => send_updates (recording_state false) s
  end.

Definition after_events (evs : list recording_event) : Indicators :=
  fold_left on_recording_event evs initial_indicators.

(** The double-quote character. *)
Definition quote : string := String "034"%char "".

(** [update_status(message, is_error=False, is_warning=False)] *)
Definition update_status (message : string) (is_error is_warning : bool)
    : string :=
  if is_error then
    "<div class=" +:+ quote +:+ "status-message status-error" +:+ quote
      +:+ ">" +:+ message +:+ "</div>"
  else if is_warning then
    "<div class=" +:+ quote +:+ "status-message status-warning" +:+ quote
      +:+ ">" +:+ message +:+ "</div>"
  else
    "<div class=" +:+ quote +:+ "status-message status-success" +:+ quote
      +:+ ">" +:+ message +:+ "</div>".

(** ** Concrete scenarios *)

Module Scenario.

Definition empty_world : World := {| files := ∅; trace := [] |}.

(** 1600 samples of silence at 16 kHz. *)
Definition silence : CapturedAudio := (16000, repeat 0 1600).

Definition short_clip : CapturedAudio := (16000, [0; 0]).
Definition longer_clip : CapturedAudio := (16000, [0; 0; 0]).

(** The header of a WAV file without samples (mono, 16 kHz, 16 bit). *)
Definition wav_header : list byte :=
  [x52; x49; x46; x46; x24; x00; x00; x00; x57; x41; x56; x45;
   x66; x6d; x74; x20; x10; x00; x00; x00; x01; x00; x01; x00;
   x80; x3e; x00; x00; x00; x7d; x00; x00; x02; x00; x10; x00;
   x64; x61; x74; x61; x00; x00; x00; x00].

(** A stand-in codec: the header, then one zero byte per sample. *)
Definition encode (samples : list Z) : list byte :=
  (wav_header ++ repeat x00 (length samples))%list.

(** A laboratory in which nothing fails on the client's side and
    [requests.post] does [upload], whatever it is sent. *)
Definition lab (upload : exn + Response) : Collaborators := {|
  time_time := λ _, 17000000005 # 10;
  gettempdir := "/tmp";
  progress_raises := λ _ _ _, None;
  wavfile_write := λ w p _ samples, (<[p := encode samples]> (files w), None);
  open_raises := λ _ _ _, None;
  write_raises := λ _ _ _, None;
  write_dropped := λ _ _ _, false;
  requests_post := λ _ _ _ _ _ _ _, upload
|}.

Definition wav_reply : Response :=
  {| status_code := 200; content := wav_header;
     response_json := inl (Exn CException "Expecting value") |}.

Definition empty_reply : Response :=
  {| status_code := 200; content := [];
     response_json := inl (Exn CException "Expecting value") |}.

(** Status 503 with the body [{"message": "Model belum siap"}], as bytes
    and as [response.json()] decodes it. *)
Definition unavailable_reply : Response :=
  {| status_code := 503;
     content :=
       [x7b; x22; x6d; x65; x73; x73; x61; x67; x65; x22; x3a; x20;
        x22; x4d; x6f; x64; x65; x6c; x20; x62; x65; x6c; x75; x6d;
        x20; x73; x69; x61; x70; x22; x7d];
     response_json := inr (JDict {[ "message" := JStr "Model belum siap" ]}) |}.

(** Status 500 with the body [{"message": 42}]: the field is a number, which
    [str()] renders as [42]. *)
Definition numeric_message_reply : Response :=
  {| status_code := 500;
     content :=
       [x7b; x22; x6d; x65; x73; x73; x61; x67; x65; x22; x3a; x20;
        x34; x32; x7d];
     response_json := inr (JDict {[ "message" := JOther "42" ]}) |}.

Definition connect_timeout : exn :=
  Exn CConnectTimeout "Connection to localhost timed out. (connect timeout=300)".

Definition read_timeout : exn :=
  Exn CTimeout "Read timed out. (read timeout=300)".

Definition refused : exn :=
  Exn CConnectionError "Connection refused".

(** The codec returns, and no file is at the path it was given. *)
Definition lossy_codec : Collaborators := {|
  time_time := λ _, 17000000005 # 10;
  gettempdir := "/tmp";
  progress_raises := λ _ _ _, None;
  wavfile_write := λ w p _ _, (delete p (files w), None);
  open_raises := λ _ _ _, None;
  write_raises := λ _ _ _, None;
  write_dropped := λ _ _ _, false;
  requests_post := λ _ _ _ _ _ _ _, inr wav_reply
|}.

(** The progress sink raises on every report. *)
Definition broken_sink : Collaborators := {|
  time_time := λ _, 17000000005 # 10;
  gettempdir := "/tmp";
  progress_raises := λ _ _ _, Some (Exn CException "progress tracker closed");
  wavfile_write := λ w p _ samples, (<[p := encode samples]> (files w), None);
  open_raises := λ _ _ _, None;
  write_raises := λ _ _ _, None;
  write_dropped := λ _ _ _, false;
  requests_post := λ _ _ _ _ _ _ _, inr wav_reply
|}.

(** The progress sink takes the first report and raises on the later ones. *)
Definition sink_breaks_later : Collaborators := {|
  time_time := λ _, 17000000005 # 10;
  gettempdir := "/tmp";
  progress_raises := λ _ q _,
    if Qeq_bool q 0 then None
    else Some (Exn CException "progress tracker closed");
  wavfile_write := λ w p _ samples, (<[p := encode samples]> (files w), None);
  open_raises := λ _ _ _, None;
  write_raises := λ _ _ _, None;
  write_dropped := λ _ _ _, false;
  requests_post := λ _ _ _ _ _ _ _, inr wav_reply
|}.

(** A fast server that echoes the upload, and a clock that advances by a
    hundredth of a second with every call to a collaborator, starting at
    1700000000.00. *)
Definition busy_second : Collaborators := {|
  time_time := λ w, (170000000000 + Z.of_nat (length (trace w))) # 100;
  gettempdir := "/tmp";
  progress_raises := λ _ _ _, None;
  wavfile_write := λ w p _ samples, (<[p := encode samples]> (files w), None);
  open_raises := λ _ _ _, None;
  write_raises := λ _ _ _, None;
  write_dropped := λ _ _ _, false;
  requests_post := λ _ _ _ _ body _ _,
    inr {| status_code := 200; content := body;
           response_json := inl (Exn CException "Expecting value") |}
|}.

(** A laboratory in which every collaborator can be made to fail: [sink]
    by the fraction reported, [codec], [opening] by the mode, [writing]. *)
Definition rig (sink : Q → option exn) (codec : option exn)
    (opening : string → option exn) (writing : option exn)
    (upload : exn + Response) : Collaborators := {|
  time_time := λ _, 17000000005 # 10;
  gettempdir := "/tmp";
  progress_raises := λ _ q _, sink q;
  wavfile_write := λ w p _ samples,
    match codec with
    | Some e => (files w, Some e)
    | None => (<[p := encode samples]> (files w), None)
    end;
  open_raises := λ _ _ mode, opening mode;
  write_raises := λ _ _ _, writing;
  write_dropped := λ _ _ _, false;
  requests_post := λ _ _ _ _ _ _ _, upload
|}.

Definition disk_full : exn := Exn CException "[Errno 28] No space left on device".
Definition permission_denied : exn := Exn CException "[Errno 13] Permission denied".
Definition bad_dtype : exn := Exn CException "Unsupported data type 'object'".
Definition chunked_encoding : exn := Exn CException "Connection broken: IncompleteRead".
Definition interrupt : exn := Exn CBaseException "".
Definition tracker_closed : exn := Exn CException "progress tracker closed".

(** The output path is a link to [/dev/null]: the file opens, the write
    returns, and nothing is kept. *)
Definition null_device (upload : exn + Response) : Collaborators := {|
  time_time := λ _, 17000000005 # 10;
  gettempdir := "/tmp";
  progress_raises := λ _ _ _, None;
  wavfile_write := λ w p _ samples, (<[p := encode samples]> (files w), None);
  open_raises := λ _ _ _, None;
  write_raises := λ _ _ _, None;
  write_dropped := λ _ _ _, true;
  requests_post := λ _ _ _ _ _ _ _, upload
|}.

(** A world in which a file of the name the next reply will get is there
    already. *)
Definition stale_world : World :=
  {| files := {[ "/tmp/tts_output_1700000000.wav" := [x00; x01] ]};
     trace := [] |}.

End Scenario.

(** ** Lemmas on the runtime *)

Lemma append_cons (c : ascii) (s t : string) :
  String c s +:+ t = String c (s +:+ t).
Proof. reflexivity. Qed.

Lemma append_empty_r (s : string) : s +:+ "" = s.
Proof.
  induction s as [|c s IH]; [reflexivity | now rewrite append_cons, IH].
Qed.

Lemma contains_suffix (a s : string) : contains s (a +:+ s).
Proof. exists a, "". now rewrite append_empty_r. Qed.

Lemma since_refl (w : World) : since w w = [].
Proof. unfold since. apply drop_all. Qed.

Lemma since_extends (w w' : World) (evs : list event) :
  trace w' = (trace w ++ evs)%list → since w w' = evs.
Proof. unfold since. intros ->. apply drop_app_length. Qed.

Section Runs.
Variable env : Collaborators.

Lemma bind_run {A B} (f : A → stmt World result B) (m : stmt World result A)
    (w : World) :
  (m ≫= f) w =
  match m w with
  | (Normal a, w') => f a w'
  | (Returned r, w') => (Returned r, w')
  | (Raised e, w') => (Raised e, w')
  end.
Proof. reflexivity. Qed.

Lemma mret_run {A} (a : A) (w : World) :
  (mret a : stmt World result A) w = (Normal a, w).
Proof. reflexivity. Qed.

Lemma return_run {A} (r : result) (w : World) :
  (return_ r : stmt World result A) w = (Returned r, w).
Proof. reflexivity. Qed.

Lemma try_except_run {A} (body : stmt World result A) clauses (w : World) :
  try_except body clauses w =
  match body w with
  | (Raised e, w') =>
      match find_clause clauses e with
      | Some handler => handler w'
      | None => (Raised e, w')
      end
  | other => other
  end.
Proof. reflexivity. Qed.

Lemma progress_run q d w :
  sink_accepts env →
  progress env q d w = (Normal tt, record (EvProgress q d) w).
Proof. intros H. unfold progress. rewrite !bind_run. simpl. now rewrite H. Qed.

Lemma progress_run_raises q d w e :
  progress_raises env w q d = Some e →
  progress env q d w = (Raised e, record (EvProgress q d) w).
Proof. intros H. unfold progress. rewrite !bind_run. simpl. now rewrite H. Qed.

Lemma now_run w : now env w = (Normal (time_time env w), w).
Proof. reflexivity. Qed.

Lemma wavfile_run p sr d w :
  (wavfile_write env w p sr d).2 = None →
  scipy_io_wavfile_write env p sr d w =
  (Normal tt, set_files (wavfile_write env w p sr d).1
                (record (EvWavWrite p sr d) w)).
Proof.
  intros H. unfold scipy_io_wavfile_write. rewrite !bind_run. simpl.
  destruct (wavfile_write env w p sr d) as [fs err]. simpl in *. subst err.
  reflexivity.
Qed.

Lemma exists_run p w :
  os_path_exists p w = (Normal (bool_decide (is_Some (files w !! p))), w).
Proof. reflexivity. Qed.

Lemma getsize_run p w data :
  files w !! p = Some data →
  os_path_getsize p w = (Normal (Z.of_nat (length data)), w).
Proof. intros H. unfold os_path_getsize. rewrite bind_run. simpl. now rewrite H. Qed.

Lemma with_open_rb_run {A} p (body : list byte → stmt World result A) w data :
  files_open env → files w !! p = Some data →
  with_open_rb env p body w = body data (record (EvOpen p "rb") w).
Proof.
  intros Ho Hf. unfold with_open_rb. rewrite !bind_run. simpl.
  now rewrite Ho, Hf.
Qed.

Lemma with_open_wb_run {A} p (body : string → stmt World result A) w :
  files_open env →
  with_open_wb env p body w =
  body p (set_files (<[p := []]> (files w)) (record (EvOpen p "wb") w)).
Proof.
  intros Ho. unfold with_open_wb. rewrite !bind_run. simpl.
  now rewrite Ho.
Qed.

Lemma file_write_run p data w :
  writes_land env →
  file_write env p data w =
  (Normal tt,
   set_files (<[p := (default [] (files w !! p) ++ data)%list]> (files w))
     (record (EvWrite p data) w)).
Proof.
  intros Hw. unfold file_write. rewrite !bind_run. simpl.
  destruct (Hw w p data) as [Hraises Hdropped].
  now rewrite Hraises, Hdropped.
Qed.

Lemma post_run_answers r url field name body mime timeout w :
  server_answers env r →
  post env url field name body mime timeout w =
  (Normal r, record (EvPost url field name body mime timeout) w).
Proof. intros H. unfold post. rewrite !bind_run. simpl. now rewrite H. Qed.

Lemma post_run_raises e url field name body mime timeout w :
  post_raises env e →
  post env url field name body mime timeout w =
  (Raised e, record (EvPost url field name body mime timeout) w).
Proof. intros H. unfold post. rewrite !bind_run. simpl. now rewrite H. Qed.

End Runs.

Lemma files_set_files fs w : files (set_files fs w) = fs.
Proof. reflexivity. Qed.

Lemma files_record ev w : files (record ev w) = files w.
Proof. reflexivity. Qed.

Lemma trace_set_files fs w : trace (set_files fs w) = trace w.
Proof. reflexivity. Qed.

Lemma trace_record ev w : trace (record ev w) = (trace w ++ [ev])%list.
Proof. reflexivity. Qed.

Create Rewrite HintDb world.
#[local] Hint Rewrite files_set_files files_record trace_set_files trace_record
  : world.

(** Symbolic execution of a run, one statement at a time. *)
Ltac side :=
  first
    [ eassumption
    | match goal with
      | H : codec_saves _ |- _ => apply H
      | H : codec_leaves_nothing _ |- _ => apply H
      end ].

Ltac exec :=
  repeat first
    [ rewrite bind_run
    | rewrite try_except_run
    | rewrite mret_run
    | rewrite return_run
    | rewrite now_run
    | rewrite exists_run
    | rewrite progress_run by side
    | rewrite wavfile_run by side
    | match goal with
      | H : server_answers _ ?r |- _ => rewrite (post_run_answers _ r) by exact H
      | H : post_raises _ ?e |- _ => rewrite (post_run_raises _ e) by exact H
      end
    | rewrite with_open_wb_run by side
    | rewrite file_write_run by side
    | progress autorewrite with world
    | progress cbv beta iota zeta delta [negb find_clause] ].

(** The calls of a finished run, read off its final world. *)
Ltac read_trace :=
  erewrite since_extends
    by (autorewrite with world; rewrite <- ?app_assoc; reflexivity).


(** The run up to the moment [requests.post] has answered or raised. *)
Ltac upload :=
  unfold voice_chat, call, voice_chat_body;
  exec;
  lazymatch goal with
  | Hc : codec_saves ?env |- context [wavfile_write ?env ?w ?p ?sr ?d] =>
      let data := fresh "wav" in
      let Hwav := fresh "Hwav" in
      destruct (proj2 (Hc w p sr d)) as [data Hwav];
      rewrite bool_decide_eq_true_2 by (exact (mk_is_Some _ _ Hwav));
      exec;
      rewrite (with_open_rb_run _ _ _ _ data) by (autorewrite with world; side);
      exec
  end.


(** ** File names *)

Lemma append_length (s t : string) :
  String.length (s +:+ t) = (String.length s + String.length t)%nat.
Proof.
  induction s as [|c s IH]; [reflexivity|].
  rewrite append_cons. simpl. now rewrite IH.
Qed.

Lemma append_inj_l (s t u : string) : s +:+ u = t +:+ u → s = t.
Proof.
  revert t. induction s as [|c s IH]; intros [|d t] H.
  - reflexivity.
  - apply (f_equal String.length) in H. rewrite !append_length in H.
    simpl in H. lia.
  - apply (f_equal String.length) in H. rewrite !append_length in H.
    simpl in H. lia.
  - rewrite !append_cons in H. injection H as -> H. f_equal. now apply IH.
Qed.

Lemma str_int_inj (n m : Z) : str_int n = str_int m → n = m.
Proof.
  unfold str_int. intros H. apply to_int_inj.
  assert (Hnil : ∀ z, Z.to_int z ≠ Decimal.Pos Decimal.Nil
                      ∧ Z.to_int z ≠ Decimal.Neg Decimal.Nil).
  { intros [|p|p]; simpl; split; try discriminate;
      intros E; injection E as E; now apply Unsigned.to_uint_nonnil in E. }
  apply (f_equal NilZero.int_of_string) in H.
  rewrite !NilZero.isi in H by apply Hnil. now injection H.
Qed.

(** X12: two clock readings name the same output file exactly when they
    fall into the same second. *)
Lemma output_filename_eq_iff (t t' : Q) :
  output_filename t = output_filename t' ↔ int_float t = int_float t'.
Proof.
  unfold output_filename. split; [|now intros ->].
  intros H. apply String.app_inj in H. apply append_inj_l in H.
  now apply str_int_inj.
Qed.

(** ** The laboratory meets the assumptions *)

Lemma lab_sink_accepts upload : sink_accepts (Scenario.lab upload).
Proof. intros w q d. reflexivity. Qed.

Lemma lab_codec_saves upload : codec_saves (Scenario.lab upload).
Proof.
  intros w p sr d. split; [reflexivity|]. simpl.
  rewrite lookup_insert_eq. now eexists.
Qed.

Lemma lab_files_open upload : files_open (Scenario.lab upload).
Proof. intros w p mode. reflexivity. Qed.

Lemma lab_writes_land upload : writes_land (Scenario.lab upload).
Proof. intros w p data. split; reflexivity. Qed.

Lemma lab_server_answers r : server_answers (Scenario.lab (inr r)) r.
Proof. intros w url field name body mime timeout. reflexivity. Qed.

Lemma lab_post_raises e : post_raises (Scenario.lab (inl e)) e.
Proof. intros w url field name body mime timeout. reflexivity. Qed.

(** ** The claims *)

(** C3: called without audio, the handler returns no file path and the
    warning that asks the user to record first, and does nothing else: no
    call reaches the network, no file is written, the world is as it was. *)
Theorem C3_absent_audio_warns_without_effects (env : Collaborators) (w : World) :
  let '(r, w') := voice_chat env None w in
  r = Returns (None, "⚠️ Mohon rekam suara terlebih dahulu")
  ∧ none_of is_network_call (since w w') = true
  ∧ none_of is_file_write (since w w') = true
  ∧ files w' = files w.
Proof.
  unfold voice_chat, call, voice_chat_body. rewrite return_run.
  rewrite since_refl. repeat split.
Qed.

(** C10: when the codec returns normally but no file is at the input path
    afterwards, the handler returns no file path and the message
    "Gagal menyimpan file audio", and no call reaches the network. *)
Theorem C10_missing_input_file_stops_before_upload (env : Collaborators)
    (sr : Z) (data : list Z) (w : World) :
  sink_accepts env → codec_leaves_nothing env →
  let '(r, w') := voice_chat env (Some (sr, data)) w in
  r = Returns (None, "⚠️ Gagal menyimpan file audio")
  ∧ none_of is_network_call (since w w') = true.
Proof.
  intros Hsink Hcodec. unfold voice_chat, call, voice_chat_body.
  exec.
  rewrite (proj2 (Hcodec _ _ _ _)).
  rewrite bool_decide_eq_false_2 by (intros [? ?]; discriminate).
  exec.
  split; [reflexivity|].
  read_trace. reflexivity.
Qed.

Lemma C10_witness :
  let '(r, w') :=
    voice_chat Scenario.lossy_codec (Some Scenario.silence) Scenario.empty_world in
  r = Returns (None, "⚠️ Gagal menyimpan file audio")
  ∧ none_of is_network_call (since Scenario.empty_world w') = true.
Proof.
  apply (C10_missing_input_file_stops_before_upload Scenario.lossy_codec).
  - intros w q d. reflexivity.
  - intros w p sr d. split; [reflexivity | apply lookup_delete_eq].
Defined.

(** C6: when the upload times out, the handler returns no file path and
    exactly the time-out message, and writes no output file; the one upload
    of the run was issued with the time-out of 300 seconds. *)
Theorem C6_timeout_is_reported (env : Collaborators) (sr : Z) (data : list Z)
    (w : World) (e : exn) :
  sink_accepts env → codec_saves env → files_open env →
  post_raises env e → isinstance_Timeout e = true →
  let '(r, w') := voice_chat env (Some (sr, data)) w in
  r = Returns (None, "🕒 Waktu permintaan habis. Server membutuhkan waktu terlalu lama untuk merespons.")
  ∧ none_of is_output_write (since w w') = true
  ∧ (∃ name body,
       filter (λ ev, is_network_call ev = true) (since w w')
       = [EvPost API_URL "file" name body "audio/wav" 300])
  ∧ REQUEST_TIMEOUT = 300.
Proof.
  intros Hsink Hcodec Hopen Hpost He. upload.
  rewrite He. exec.
  split; [reflexivity|]. read_trace. split; [reflexivity|].
  split; [|reflexivity]. eexists _, _. reflexivity.
Qed.

Lemma C6_witness :
  let '(r, w') :=
    voice_chat (Scenario.lab (inl Scenario.read_timeout))
      (Some Scenario.silence) Scenario.empty_world in
  r = Returns (None, "🕒 Waktu permintaan habis. Server membutuhkan waktu terlalu lama untuk merespons.")
  ∧ none_of is_output_write (since Scenario.empty_world w') = true
  ∧ (∃ name body,
       filter (λ ev, is_network_call ev = true) (since Scenario.empty_world w')
       = [EvPost API_URL "file" name body "audio/wav" 300])
  ∧ REQUEST_TIMEOUT = 300.
Proof.
  apply (C6_timeout_is_reported (Scenario.lab (inl Scenario.read_timeout))
           16000 (repeat 0 1600) Scenario.empty_world Scenario.read_timeout).
  - apply lab_sink_accepts.
  - apply lab_codec_saves.
  - apply lab_files_open.
  - apply lab_post_raises.
  - reflexivity.
Defined.

(** C7, as amended: when [requests.post] raises a [ConnectionError] that is
    not also a [Timeout], the handler returns no file path and exactly the
    cannot-reach-server message, and writes no output file. *)
Theorem C7_connection_failure_is_reported (env : Collaborators) (sr : Z)
    (data : list Z) (w : World) (e : exn) :
  sink_accepts env → codec_saves env → files_open env →
  post_raises env e →
  isinstance_ConnectionError e = true → isinstance_Timeout e = false →
  let '(r, w') := voice_chat env (Some (sr, data)) w in
  r = Returns (None, "🔌 Tidak dapat terhubung ke server. Pastikan server berjalan di http://localhost:8000")
  ∧ none_of is_output_write (since w w') = true.
Proof.
  intros Hsink Hcodec Hopen Hpost Hc Ht. upload.
  rewrite Ht, Hc. exec.
  split; [reflexivity|]. read_trace. reflexivity.
Qed.

Lemma C7_witness :
  let '(r, w') :=
    voice_chat (Scenario.lab (inl Scenario.refused))
      (Some Scenario.silence) Scenario.empty_world in
  r = Returns (None, "🔌 Tidak dapat terhubung ke server. Pastikan server berjalan di http://localhost:8000")
  ∧ none_of is_output_write (since Scenario.empty_world w') = true.
Proof.
  apply (C7_connection_failure_is_reported (Scenario.lab (inl Scenario.refused))
           16000 (repeat 0 1600) Scenario.empty_world Scenario.refused).
  - apply lab_sink_accepts.
  - apply lab_codec_saves.
  - apply lab_files_open.
  - apply lab_post_raises.
  - reflexivity.
  - reflexivity.
Defined.

(** C7, as stated, fails: a connection attempt that times out cannot be
    established either ([ConnectTimeout] is a [ConnectionError]), yet the
    [except Timeout] clause comes first and the handler answers with the
    time-out message. *)
Lemma C7_connect_timeout_counterexample :
  post_raises (Scenario.lab (inl Scenario.connect_timeout)) Scenario.connect_timeout
  ∧ isinstance_ConnectionError Scenario.connect_timeout = true
  ∧ (voice_chat (Scenario.lab (inl Scenario.connect_timeout))
       (Some Scenario.short_clip) Scenario.empty_world).1
    = Returns (None, msg_timeout)
  ∧ (voice_chat (Scenario.lab (inl Scenario.connect_timeout))
       (Some Scenario.short_clip) Scenario.empty_world).1
    ≠ Returns (None, msg_connection).
Proof.
  split; [apply lab_post_raises|]. split; [reflexivity|].
  split; [vm_compute; reflexivity|]. vm_compute. discriminate.
Qed.

(** C8: a reply with status 200 and an empty body makes the handler return
    no file path and the message "Server mengembalikan respons kosong",
    without writing an output file. *)
Theorem C8_empty_reply_is_an_error (env : Collaborators) (sr : Z)
    (data : list Z) (w : World) (r : Response) :
  sink_accepts env → codec_saves env → files_open env →
  server_answers env r → status_code r = 200 → content r = [] →
  let '(res, w') := voice_chat env (Some (sr, data)) w in
  res = Returns (None, "⚠️ Server mengembalikan respons kosong")
  ∧ none_of is_output_write (since w w') = true.
Proof.
  intros Hsink Hcodec Hopen Hpost Hstatus Hcontent. upload.
  rewrite Hstatus, Hcontent. change (200 =? 200)%Z with true. exec.
  split; [reflexivity|]. read_trace. reflexivity.
Qed.

Lemma C8_witness :
  let '(res, w') :=
    voice_chat (Scenario.lab (inr Scenario.empty_reply))
      (Some Scenario.silence) Scenario.empty_world in
  res = Returns (None, "⚠️ Server mengembalikan respons kosong")
  ∧ none_of is_output_write (since Scenario.empty_world w') = true.
Proof.
  apply (C8_empty_reply_is_an_error (Scenario.lab (inr Scenario.empty_reply))
           16000 (repeat 0 1600) Scenario.empty_world Scenario.empty_reply).
  - apply lab_sink_accepts.
  - apply lab_codec_saves.
  - apply lab_files_open.
  - apply lab_server_answers.
  - reflexivity.
  - reflexivity.
Defined.

(** C1, as amended: when no collaborator fails (the sink takes the reports,
    the clip is saved and opens, the output file opens and the write lands),
    a reply with status 200 and a non-empty body makes the handler write the
    body, byte for byte, to the output file and return the path of that file
    with the success message; afterwards the file holds exactly the body.
    Whether the file is a new one is left open. *)
Theorem C1_reply_is_written_verbatim (env : Collaborators) (sr : Z)
    (data : list Z) (w : World) (r : Response) :
  sink_accepts env → codec_saves env → files_open env → writes_land env →
  server_answers env r → status_code r = 200 → content r ≠ [] →
  ∃ path w',
    voice_chat env (Some (sr, data)) w
    = (Returns (Some path, "✅ Berhasil mendapatkan respons"), w')
    ∧ files w' !! path = Some (content r)
    ∧ EvWrite path (content r) ∈ since w w'.
Proof.
  intros Hsink Hcodec Hopen Hwrite Hpost Hstatus Hcontent. upload.
  rewrite Hstatus. change (200 =? 200)%Z with true.
  destruct (content r) as [|b body] eqn:Hbody; [done|]. exec.
  rewrite bool_decide_eq_true_2
    by (rewrite lookup_insert_eq; now eexists).
  exec.
  erewrite getsize_run by (autorewrite with world; apply lookup_insert_eq).
  exec. repeat rewrite lookup_insert_eq.
  change (default [] (Some []) ++ b :: body)%list with (b :: body).
  change (length (b :: body)) with (S (length body)).
  rewrite Nat2Z.inj_succ.
  destruct (Z.eqb_spec (Z.succ (Z.of_nat (length body))) 0) as [E|_]; [lia|].
  exec.
  eexists _, _. split; [reflexivity|].
  autorewrite with world. split; [now rewrite lookup_insert_eq|].
  read_trace. set_solver.
Qed.

Lemma C1_witness :
  ∃ path w',
    voice_chat (Scenario.lab (inr Scenario.wav_reply))
      (Some Scenario.silence) Scenario.empty_world
    = (Returns (Some path, "✅ Berhasil mendapatkan respons"), w')
    ∧ files w' !! path = Some Scenario.wav_header
    ∧ EvWrite path Scenario.wav_header ∈ since Scenario.empty_world w'.
Proof.
  apply (C1_reply_is_written_verbatim (Scenario.lab (inr Scenario.wav_reply))
           16000 (repeat 0 1600) Scenario.empty_world Scenario.wav_reply).
  - apply lab_sink_accepts.
  - apply lab_codec_saves.
  - apply lab_files_open.
  - apply lab_writes_land.
  - apply lab_server_answers.
  - reflexivity.
  - discriminate.
Defined.

(** C1, as stated, fails: the same reply, status 200 with the 44 bytes of a
    WAV header, is answered with an error when the disk is full and when the
    write is lost without an exception (the checks of lines 104-113), and
    where a file of the output name is there already, the handler succeeds
    by replacing it, not by writing a new file. *)
Lemma C1_reply_not_always_written_counterexample :
  status_code Scenario.wav_reply = 200
  ∧ content Scenario.wav_reply ≠ []
  ∧ (voice_chat
       (Scenario.rig (λ _, None) None (λ _, None) (Some Scenario.disk_full)
          (inr Scenario.wav_reply))
       (Some Scenario.short_clip) Scenario.empty_world).1
    = Returns (None, "⚠️ Gagal menyimpan file audio respons: "
                     +:+ exn_str Scenario.disk_full)
  ∧ (let '(r, w') :=
       voice_chat (Scenario.null_device (inr Scenario.wav_reply))
         (Some Scenario.short_clip) Scenario.empty_world in
     r = Returns (None, "⚠️ File audio respons kosong atau tidak valid")
     ∧ files w' !! "/tmp/tts_output_1700000000.wav" = Some [])
  ∧ (let '(r, w') :=
       voice_chat (Scenario.lab (inr Scenario.wav_reply))
         (Some Scenario.short_clip) Scenario.stale_world in
     files Scenario.stale_world !! "/tmp/tts_output_1700000000.wav"
     = Some [x00; x01]
     ∧ r = Returns (Some "/tmp/tts_output_1700000000.wav", msg_success)
     ∧ files w' !! "/tmp/tts_output_1700000000.wav"
       = Some Scenario.wav_header).
Proof.
  split; [reflexivity|]. split; [discriminate|].
  vm_compute. repeat split.
Qed.

(** C4: a reply with a status other than 200 makes the handler return no
    file path and a server-error message.  When the body has a [message]
    field, the message contains its value: the text of a JSON string, the
    text [str()] gives for any other value.  Otherwise (empty body, body
    that does not parse, body that is no object, object without the field)
    it contains the status code. *)
Theorem C4_error_reply_is_reported (env : Collaborators) (sr : Z)
    (data : list Z) (w : World) (r : Response) :
  sink_accepts env → codec_saves env → files_open env →
  server_answers env r → status_code r ≠ 200 →
  ∃ msg,
    (voice_chat env (Some (sr, data)) w).1 = Returns (None, msg)
    ∧ match message_field r with
      | Some (JStr text) =>
          msg = "⚠️ Server Error: " +:+ text ∧ contains text msg
      | Some (JOther str_text) =>
          msg = "⚠️ Server Error: " +:+ str_text ∧ contains str_text msg
      | None =>
          msg = "⚠️ Server Error: Kode status: " +:+ str_int (status_code r)
          ∧ contains (str_int (status_code r)) msg
      end.
Proof.
  intros Hsink Hcodec Hopen Hpost Hstatus. upload.
  destruct (Z.eqb_spec (status_code r) 200) as [E|_]; [contradiction|].
  unfold message_field, json, dict_get.
  assert (Hfallback :
    contains (str_int (status_code r))
      ("⚠️ Server Error: Kode status: " +:+ str_int (status_code r))).
  { apply contains_suffix. }
  destruct (content r) as [|b body]; exec.
  - rewrite lookup_empty. eexists. split; [reflexivity|]. now split.
  - destruct (response_json r) as [e|[fields|]]; exec.
    + eexists. split; [reflexivity|]. now split.
    + destruct (fields !! "message") as [[text|str_text]|]; simpl default.
      * eexists. split; [reflexivity|]. split; [reflexivity|].
        apply contains_suffix.
      * eexists. split; [reflexivity|]. split; [reflexivity|].
        apply contains_suffix.
      * eexists. split; [reflexivity|]. now split.
    + eexists. split; [reflexivity|]. now split.
Qed.

Lemma C4_witness :
  ∃ msg,
    (voice_chat (Scenario.lab (inr Scenario.unavailable_reply))
       (Some Scenario.silence) Scenario.empty_world).1
    = Returns (None, msg)
    ∧ match message_field Scenario.unavailable_reply with
      | Some (JStr text) =>
          msg = "⚠️ Server Error: " +:+ text ∧ contains text msg
      | Some (JOther str_text) =>
          msg = "⚠️ Server Error: " +:+ str_text ∧ contains str_text msg
      | None =>
          msg = "⚠️ Server Error: Kode status: "
                +:+ str_int (status_code Scenario.unavailable_reply)
          ∧ contains (str_int (status_code Scenario.unavailable_reply)) msg
      end.
Proof.
  apply (C4_error_reply_is_reported (Scenario.lab (inr Scenario.unavailable_reply))
           16000 (repeat 0 1600) Scenario.empty_world Scenario.unavailable_reply).
  - apply lab_sink_accepts.
  - apply lab_codec_saves.
  - apply lab_files_open.
  - apply lab_server_answers.
  - discriminate.
Defined.

(** The three kinds of error body at work: a string field, a field that is
    a number, and no body at all. *)
Example error_replies_rendered :
  (voice_chat (Scenario.lab (inr Scenario.unavailable_reply))
     (Some Scenario.short_clip) Scenario.empty_world).1
  = Returns (None, "⚠️ Server Error: Model belum siap")
  ∧ (voice_chat (Scenario.lab (inr Scenario.numeric_message_reply))
       (Some Scenario.short_clip) Scenario.empty_world).1
    = Returns (None, "⚠️ Server Error: 42")
  ∧ (voice_chat
       (Scenario.lab
          (inr {| status_code := 404; content := [];
                  response_json := inl (Exn CException "Expecting value") |}))
       (Some Scenario.short_clip) Scenario.empty_world).1
    = Returns (None, "⚠️ Server Error: Kode status: 404").
Proof. vm_compute. repeat split. Qed.

(** ** Every path through the handler *)

Ltac unfold_run :=
  unfold voice_chat, call, voice_chat_body, progress, now,
    scipy_io_wavfile_write, os_path_exists, os_path_getsize, with_open_rb,
    with_open_wb, file_write, post, json, dict_get;
  unfold mbind, mret, stmt_bind, stmt_ret, bind, pure, try_except, return_,
    raise, get_state, modify; simpl.

(** A message that starts with other bytes than the success message is not
    the success message. *)
Lemma not_success (c1 c2 : ascii) (rest s : string) :
  (c1, c2) ≠ ("226"%char, "156"%char) →
  String c1 (String c2 rest) +:+ s ≠ msg_success.
Proof.
  intros Hc E. apply Hc. unfold msg_success in E.
  rewrite !append_cons in E. now inversion E.
Qed.

(** C9: whenever the handler returns, it returns a file path exactly when
    the message is the success message: every warning and error branch
    returns [None], the success branch returns a path. *)
Theorem C9_path_iff_success (env : Collaborators)
    (audio : option CapturedAudio) (w w' : World) (p : option string)
    (m : string) :
  voice_chat env audio w = (Returns (p, m), w') →
  (p ≠ None ↔ m = "✅ Berhasil mendapatkan respons").
Proof.
  change "✅ Berhasil mendapatkan respons" with msg_success.
  unfold_run. intros H.
  assert (p = None ∧ m ≠ msg_success ∨ is_Some p ∧ m = msg_success)
    as [[-> Hm]|[[path ->] ->]];
    [| split; [intros Hp; now contradict Hp | contradiction]
     | split; [reflexivity | discriminate] ].
  repeat (case_match; simplify_eq/=);
    try (right; split; [eexists|]; reflexivity);
    left; (split; [reflexivity|]);
    first [ apply not_success; discriminate | discriminate ].
Qed.

Lemma C9_witness :
  Some "/tmp/tts_output_1700000000.wav" ≠ None
  ↔ msg_success = "✅ Berhasil mendapatkan respons".
Proof.
  apply (C9_path_iff_success (Scenario.lab (inr Scenario.wav_reply))
           (Some Scenario.silence) Scenario.empty_world
           (voice_chat (Scenario.lab (inr Scenario.wav_reply))
              (Some Scenario.silence) Scenario.empty_world).2).
  vm_compute. reflexivity.
Defined.

(** The example of the specification: 1600 samples of silence at 16 kHz and
    a server that answers 200 with the 44 bytes of a WAV header give the
    path of a file of 44 bytes and the success message. *)
Example silence_is_answered_with_44_bytes :
  let '(r, w') :=
    voice_chat (Scenario.lab (inr Scenario.wav_reply))
      (Some Scenario.silence) Scenario.empty_world in
  r = Returns (Some "/tmp/tts_output_1700000000.wav", msg_success)
  ∧ length <$> (files w' !! "/tmp/tts_output_1700000000.wav") = Some 44%nat.
Proof. vm_compute. split; reflexivity. Qed.

(** ** What escapes the handler *)

(** The first progress report stands before the [try]: whatever it raises
    leaves the handler. *)
Lemma first_report_is_outside_try (env : Collaborators)
    (audio : CapturedAudio) (w : World) (e : exn) :
  progress_raises env w 0 "Memproses suara..." = Some e →
  voice_chat env (Some audio) w
  = (Escapes e, record (EvProgress 0 "Memproses suara...") w).
Proof.
  intros H. destruct audio as [sr data].
  unfold voice_chat, call, voice_chat_body.
  rewrite bind_run, (progress_run_raises _ _ _ _ e H). reflexivity.
Qed.

(** X7: everything after the first progress report stands inside the
    [try]: once that report is through, the handler returns, whatever the
    collaborators raise, as long as it derives from [Exception]. *)
Lemma exceptions_are_caught_inside_try (env : Collaborators)
    (audio : CapturedAudio) (w : World) :
  progress_raises env w 0 "Memproses suara..." = None →
  raises_only_exceptions env →
  ∃ r w', voice_chat env (Some audio) w = (Returns r, w').
Proof.
  intros H0 (Hp & Hc & Ho & Hw & Hr). destruct audio as [sr data].
  unfold_run. rewrite H0.
  repeat (case_match; simplify_eq/=); try (eexists _, _; reflexivity).
  all: exfalso;
    repeat match goal with
    | H : progress_raises _ _ _ _ = Some _ |- _ => apply Hp in H
    | H : open_raises _ _ _ _ = Some _ |- _ => apply Ho in H
    | H : write_raises _ _ _ _ = Some _ |- _ => apply Hw in H
    | H : requests_post _ _ _ _ _ _ _ _ = inl _ |- _ => apply Hr in H
    | H : wavfile_write _ ?w ?p ?sr ?d = (_, Some ?e) |- _ =>
        let H' := fresh in
        pose proof (Hc w p sr d e) as H'; rewrite H in H';
        specialize (H' eq_refl); clear H
    end;
    congruence.
Qed.

Lemma later_report_failure_is_caught :
  (voice_chat Scenario.sink_breaks_later (Some Scenario.short_clip)
     Scenario.empty_world).1
  = Returns (None, "⚠️ Terjadi kesalahan: progress tracker closed").
Proof. vm_compute. reflexivity. Qed.

(** C5, at the input on which the code breaks it: a progress sink that
    raises on the first report makes the exception leave the handler, which
    returns nothing. *)
Theorem C5_first_report_failure_escapes :
  (voice_chat Scenario.broken_sink (Some Scenario.silence)
     Scenario.empty_world).1
  = Escapes (Exn CException "progress tracker closed").
Proof.
  now rewrite (first_report_is_outside_try Scenario.broken_sink
                 Scenario.silence Scenario.empty_world
                 (Exn CException "progress tracker closed") eq_refl).
Qed.

(** C2, at the input on which the code breaks it: two submissions in the
    same second.  The clock has moved on between them, both succeed, both
    are given the same output file name, and the reply to the second
    replaces the reply to the first. *)
Theorem C2_same_second_same_output_name :
  let first :=
    voice_chat Scenario.busy_second (Some Scenario.short_clip)
      Scenario.empty_world in
  let second :=
    voice_chat Scenario.busy_second (Some Scenario.longer_clip) first.2 in
  time_time Scenario.busy_second Scenario.empty_world
    ≠ time_time Scenario.busy_second first.2
  ∧ first.1 = Returns (Some "/tmp/tts_output_1700000000.wav", msg_success)
  ∧ second.1 = Returns (Some "/tmp/tts_output_1700000000.wav", msg_success)
  ∧ files first.2 !! "/tmp/tts_output_1700000000.wav"
    = Some (Scenario.encode [0; 0])
  ∧ files second.2 !! "/tmp/tts_output_1700000000.wav"
    = Some (Scenario.encode [0; 0; 0])
  ∧ Scenario.encode [0; 0] ≠ Scenario.encode [0; 0; 0].
Proof.
  vm_compute. repeat split; discriminate.
Qed.

(** ** More on the runtime *)

Section MoreRuns.
Variable env : Collaborators.

Lemma progress_run_accepted q d w :
  progress_raises env w q d = None →
  progress env q d w = (Normal tt, record (EvProgress q d) w).
Proof. intros H. unfold progress. rewrite !bind_run. simpl. now rewrite H. Qed.

Lemma wavfile_run_raises p sr d w e :
  (wavfile_write env w p sr d).2 = Some e →
  scipy_io_wavfile_write env p sr d w =
  (Raised e, set_files (wavfile_write env w p sr d).1
               (record (EvWavWrite p sr d) w)).
Proof.
  intros H. unfold scipy_io_wavfile_write. rewrite !bind_run. simpl.
  destruct (wavfile_write env w p sr d) as [fs err]. simpl in *. subst err.
  reflexivity.
Qed.

Lemma with_open_rb_run_raises {A} p (body : list byte → stmt World result A)
    w e :
  open_raises env w p "rb" = Some e →
  with_open_rb env p body w = (Raised e, record (EvOpen p "rb") w).
Proof.
  intros Ho. unfold with_open_rb. rewrite !bind_run. simpl. now rewrite Ho.
Qed.

Lemma with_open_rb_run_opened {A} p (body : list byte → stmt World result A)
    w data :
  open_raises env w p "rb" = None → files w !! p = Some data →
  with_open_rb env p body w = body data (record (EvOpen p "rb") w).
Proof.
  intros Ho Hf. unfold with_open_rb. rewrite !bind_run. simpl.
  now rewrite Ho, Hf.
Qed.

Lemma with_open_wb_run_raises {A} p (body : string → stmt World result A)
    w e :
  open_raises env w p "wb" = Some e →
  with_open_wb env p body w = (Raised e, record (EvOpen p "wb") w).
Proof.
  intros Ho. unfold with_open_wb. rewrite !bind_run. simpl. now rewrite Ho.
Qed.

Lemma with_open_wb_run_opened {A} p (body : string → stmt World result A) w :
  open_raises env w p "wb" = None →
  with_open_wb env p body w =
  body p (set_files (<[p := []]> (files w)) (record (EvOpen p "wb") w)).
Proof.
  intros Ho. unfold with_open_wb. rewrite !bind_run. simpl. now rewrite Ho.
Qed.

Lemma file_write_run_raises p data w e :
  write_raises env w p data = Some e →
  file_write env p data w = (Raised e, record (EvWrite p data) w).
Proof.
  intros Hw. unfold file_write. rewrite !bind_run. simpl. now rewrite Hw.
Qed.

Lemma file_write_run_dropped p data w :
  writes_are_dropped env →
  file_write env p data w = (Normal tt, record (EvWrite p data) w).
Proof.
  intros Hw. unfold file_write. rewrite !bind_run. simpl.
  destruct (Hw w p data) as [Hraises Hdropped].
  now rewrite Hraises, Hdropped.
Qed.

End MoreRuns.

(** Side conditions of the steps below, from the assumptions at hand. *)
Ltac side2 :=
  first
    [ eassumption
    | match goal with
      | H : opens _ _ |- _ => apply H
      | H : open_fails _ _ _ |- _ => apply H
      | H : write_fails _ _ |- _ => apply H
      | H : codec_raises _ _ |- _ => apply H
      | H : writes_land _ |- _ => apply H
      | H : files_open _ |- _ => apply H
      | H : sink_fails_on_completion _ _ |- _ => rewrite H; reflexivity
      end ].

Ltac run :=
  repeat first
    [ progress exec
    | rewrite progress_run_accepted by side2
    | rewrite with_open_wb_run_opened by side2
    | rewrite file_write_run_dropped by eassumption
    | match goal with
      | H : codec_raises _ ?e |- _ => rewrite (wavfile_run_raises _ _ _ _ _ e) by side2
      | H : open_fails _ "rb" ?e |- _ =>
          rewrite (with_open_rb_run_raises _ _ _ _ e) by side2
      | H : open_fails _ "wb" ?e |- _ =>
          rewrite (with_open_wb_run_raises _ _ _ _ e) by side2
      | H : write_fails _ ?e |- _ => rewrite (file_write_run_raises _ _ _ _ e) by side2
      | H : sink_fails_on_completion _ ?e |- _ =>
          rewrite (progress_run_raises _ _ _ _ e) by side2
      end ].

(** The run up to the opening of the saved clip. *)
Ltac saved_clip :=
  unfold voice_chat, call, voice_chat_body;
  run;
  lazymatch goal with
  | Hc : codec_saves ?env |- context [wavfile_write ?env ?w ?p ?sr ?d] =>
      let data := fresh "wav" in
      let Hwav := fresh "Hwav" in
      destruct (proj2 (Hc w p sr d)) as [data Hwav];
      rewrite bool_decide_eq_true_2 by (exact (mk_is_Some _ _ Hwav));
      run;
      try (rewrite (with_open_rb_run_opened _ _ _ _ data)
             by (autorewrite with world; side2));
      run
  end.

Lemma plain_exception (e : exn) :
  exn_cls e = CException →
  isinstance_Timeout e = false ∧ isinstance_ConnectionError e = false
  ∧ isinstance_Exception e = true.
Proof.
  unfold isinstance_Timeout, isinstance_ConnectionError, isinstance_Exception.
  now intros ->.
Qed.

(** ** Failures the handler reports *)

(** X1: any other failure of the upload (an exception of [requests.post] that is
    neither a [Timeout] nor a [ConnectionError]) is reported as
    "Error: " followed by the text of the exception; no output file is
    written. *)
Theorem other_upload_failure_is_reported (env : Collaborators) (sr : Z)
    (data : list Z) (w : World) (e : exn) :
  sink_accepts env → codec_saves env → files_open env →
  post_raises env e → exn_cls e = CException →
  let '(r, w') := voice_chat env (Some (sr, data)) w in
  r = Returns (None, "🔴 Error: " +:+ exn_str e)
  ∧ none_of is_output_write (since w w') = true.
Proof.
  intros Hsink Hcodec Hopen Hpost (Ht & Hc & He)%plain_exception. upload.
  rewrite Ht, Hc, He. exec.
  split; [reflexivity|]. read_trace. reflexivity.
Qed.

(** X2: when the saved clip cannot be opened for reading, the handler reports it
    in the same words as a failed upload, "Error: " followed by the text of
    the exception, and no call reaches the network. *)
Theorem unreadable_clip_is_reported_without_upload (env : Collaborators)
    (sr : Z) (data : list Z) (w : World) (e : exn) :
  sink_accepts env → codec_saves env → open_fails env "rb" e →
  exn_cls e = CException →
  let '(r, w') := voice_chat env (Some (sr, data)) w in
  r = Returns (None, "🔴 Error: " +:+ exn_str e)
  ∧ none_of is_network_call (since w w') = true.
Proof.
  intros Hsink Hcodec Hopen (Ht & Hc & He)%plain_exception. saved_clip.
  rewrite Ht, Hc, He. run.
  split; [reflexivity|]. read_trace. reflexivity.
Qed.

(** X3: when the codec raises, the handler returns no file path and the general
    message "Terjadi kesalahan: " followed by the text of the exception; no
    call reaches the network and no output file is written. *)
Theorem codec_failure_is_reported_without_upload (env : Collaborators)
    (sr : Z) (data : list Z) (w : World) (e : exn) :
  sink_accepts env → codec_raises env e → isinstance_Exception e = true →
  let '(r, w') := voice_chat env (Some (sr, data)) w in
  r = Returns (None, "⚠️ Terjadi kesalahan: " +:+ exn_str e)
  ∧ none_of is_network_call (since w w') = true
  ∧ none_of is_output_write (since w w') = true.
Proof.
  intros Hsink Hcodec He. unfold voice_chat, call, voice_chat_body. run.
  rewrite He. run.
  split; [reflexivity|]. read_trace. split; reflexivity.
Qed.

(** X4: when the output file cannot be created, or the write to it fails, the
    handler returns no file path and "Gagal menyimpan file audio respons: "
    followed by the text of the exception; completion is not reported. *)
Theorem failed_output_write_is_reported (env : Collaborators) (sr : Z)
    (data : list Z) (w : World) (r : Response) (e : exn) :
  sink_accepts env → codec_saves env → opens env "rb" →
  server_answers env r → status_code r = 200 → content r ≠ [] →
  open_fails env "wb" e ∨ (opens env "wb" ∧ write_fails env e) →
  isinstance_Exception e = true →
  let '(res, w') := voice_chat env (Some (sr, data)) w in
  res = Returns (None, "⚠️ Gagal menyimpan file audio respons: " +:+ exn_str e)
  ∧ none_of (is_report 1 "Selesai!") (since w w') = true.
Proof.
  intros Hsink Hcodec Hrb Hpost Hstatus Hcontent Hfail He. saved_clip.
  rewrite Hstatus. change (200 =? 200)%Z with true.
  destruct (content r) as [|b body] eqn:Hbody; [done|].
  destruct Hfail as [Hwb | [Hwb Hwrite]]; run; rewrite He; run.
  all: split; [reflexivity|]; read_trace; reflexivity.
Qed.

(** X15: when the write returns normally but the bytes do not reach the
    file (the output path is a link to [/dev/null], say), the check after
    the write finds the file empty: the handler returns no file path and
    "File audio respons kosong atau tidak valid", although nothing was
    raised; completion is not reported. *)
Theorem lost_write_is_reported (env : Collaborators) (sr : Z)
    (data : list Z) (w : World) (r : Response) :
  sink_accepts env → codec_saves env → files_open env →
  writes_are_dropped env →
  server_answers env r → status_code r = 200 → content r ≠ [] →
  ∃ path w',
    voice_chat env (Some (sr, data)) w
    = (Returns (None, "⚠️ File audio respons kosong atau tidak valid"), w')
    ∧ EvWrite path (content r) ∈ since w w'
    ∧ files w' !! path = Some []
    ∧ none_of (is_report 1 "Selesai!") (since w w') = true.
Proof.
  intros Hsink Hcodec Hopen Hwrite Hpost Hstatus Hcontent. saved_clip.
  rewrite Hstatus. change (200 =? 200)%Z with true.
  destruct (content r) as [|b body] eqn:Hbody; [done|]. run.
  rewrite bool_decide_eq_true_2
    by (rewrite lookup_insert_eq; now eexists).
  run.
  erewrite getsize_run by (autorewrite with world; apply lookup_insert_eq).
  run. change (Z.of_nat (length []) =? 0)%Z with true. run.
  eexists _, _. split; [reflexivity|].
  autorewrite with world. read_trace.
  refine (conj _ (conj _ _)); [ | apply lookup_insert_eq | reflexivity ].
  set_solver.
Qed.

(** X5: when the progress sink raises on the report of completion, the reply has
    already been written: the file holds the body of the reply, yet the
    handler returns no file path and the general error message. *)
Theorem failed_completion_report_hides_the_reply (env : Collaborators)
    (sr : Z) (data : list Z) (w : World) (r : Response) (e : exn) :
  sink_fails_on_completion env e → codec_saves env → files_open env →
  writes_land env → server_answers env r →
  status_code r = 200 → content r ≠ [] → isinstance_Exception e = true →
  ∃ path w',
    voice_chat env (Some (sr, data)) w
    = (Returns (None, "⚠️ Terjadi kesalahan: " +:+ exn_str e), w')
    ∧ files w' !! path = Some (content r)
    ∧ EvWrite path (content r) ∈ since w w'.
Proof.
  intros Hsink Hcodec Hopen Hwrite Hpost Hstatus Hcontent He. saved_clip.
  rewrite Hstatus. change (200 =? 200)%Z with true.
  destruct (content r) as [|b body] eqn:Hbody; [done|]. run.
  rewrite bool_decide_eq_true_2
    by (rewrite lookup_insert_eq; now eexists).
  run.
  erewrite getsize_run by (autorewrite with world; apply lookup_insert_eq).
  run. repeat rewrite lookup_insert_eq.
  change (default [] (Some []) ++ b :: body)%list with (b :: body).
  change (length (b :: body)) with (S (length body)).
  rewrite Nat2Z.inj_succ.
  destruct (Z.eqb_spec (Z.succ (Z.of_nat (length body))) 0) as [E|_]; [lia|].
  run. rewrite He. run.
  eexists _, _. split; [reflexivity|].
  autorewrite with world. split; [now rewrite lookup_insert_eq|].
  read_trace. set_solver.
Qed.

(** X6: an exception of [requests.post] that does not derive from [Exception]
    (a [KeyboardInterrupt], say) passes every [except Exception] clause and
    leaves the handler; no output file is written. *)
Theorem interrupt_during_upload_escapes (env : Collaborators) (sr : Z)
    (data : list Z) (w : World) (e : exn) :
  sink_accepts env → codec_saves env → files_open env →
  post_raises env e → isinstance_Exception e = false →
  let '(r, w') := voice_chat env (Some (sr, data)) w in
  r = Escapes e ∧ none_of is_output_write (since w w') = true.
Proof.
  intros Hsink Hcodec Hopen Hpost He.
  assert (isinstance_Timeout e = false ∧ isinstance_ConnectionError e = false)
    as [Ht Hc].
  { revert He.
    unfold isinstance_Timeout, isinstance_ConnectionError, isinstance_Exception.
    now destruct (exn_cls e). }
  upload. rewrite Ht, Hc, He. exec. rewrite He. exec.
  split; [reflexivity|]. read_trace. reflexivity.
Qed.

(** ** What every run does *)

(** The calls of a run, whatever the collaborators do. *)
Lemma calls_of_a_run (env : Collaborators) (audio : option CapturedAudio)
    (w : World) :
  ∃ evs, trace (voice_chat env audio w).2 = (trace w ++ evs)%list
         ∧ follows protocol evs = true.
Proof.
  unfold_run.
  repeat (case_match; simplify_eq/=);
    (eexists; split;
     [ first [ rewrite <- ?app_assoc; reflexivity
             | symmetry; apply app_nil_r ]
     | reflexivity ]).
Qed.

(** X8: whatever the collaborators do, the calls the handler makes are an
    initial part of one fixed sequence: report 0, encode the clip, report
    0.3, open the clip, upload, report 0.7, open the output file, write,
    report 1.0.  Nothing is called twice or out of order. *)
Theorem calls_follow_the_protocol (env : Collaborators)
    (audio : option CapturedAudio) (w : World) :
  follows protocol (since w (voice_chat env audio w).2) = true.
Proof.
  destruct (calls_of_a_run env audio w) as (evs & Htrace & Hfollows).
  now rewrite (since_extends _ _ _ Htrace).
Qed.

Lemma follows_cons step steps ev evs :
  follows (step :: steps) (ev :: evs) = step ev && follows steps evs.
Proof. reflexivity. Qed.

Ltac next_call H :=
  lazymatch type of H with
  | follows _ ?evs = true =>
      let ev := fresh "ev" in
      let Hev := fresh "Hev" in
      let rest := fresh "rest" in
      destruct evs as [|ev rest];
      [ | rewrite follows_cons in H; apply andb_prop in H as [Hev H];
          destruct ev; try discriminate Hev ]
  end.

Lemma one_upload_in_protocol (evs : list event) :
  follows protocol evs = true →
  filter (λ ev, is_network_call ev = true) evs = []
  ∨ ∃ name body,
      filter (λ ev, is_network_call ev = true) evs
      = [EvPost API_URL "file" name body "audio/wav" 300].
Proof.
  intros H. unfold protocol in H.
  do 5 (next_call H; [now left|]).
  match goal with
  | Hu : is_upload _ = true |- _ =>
      unfold is_upload in Hu;
      apply andb_prop in Hu as [Hu ->%Z.eqb_eq];
      apply andb_prop in Hu as [Hu ->%String.eqb_eq];
      apply andb_prop in Hu as [->%String.eqb_eq ->%String.eqb_eq]
  end.
  do 4 (next_call H; [right; eexists _, _; reflexivity|]).
  match type of H with follows _ ?l = true => destruct l end;
    [right; eexists _, _; reflexivity | discriminate H].
Qed.

(** X9: whatever the collaborators do, a run uploads at most once, and the
    upload goes to the fixed URL as form field [file] of type [audio/wav]
    with the time-out of 300 seconds: there is no retry. *)
Theorem at_most_one_upload (env : Collaborators)
    (audio : option CapturedAudio) (w : World) :
  let uploads :=
    filter (λ ev, is_network_call ev = true)
      (since w (voice_chat env audio w).2) in
  uploads = []
  ∨ ∃ name body, uploads = [EvPost API_URL "file" name body "audio/wav" 300].
Proof.
  destruct (calls_of_a_run env audio w) as (evs & Htrace & Hfollows).
  cbv zeta. rewrite (since_extends _ _ _ Htrace).
  now apply one_upload_in_protocol.
Qed.


(** X10: whenever the handler returns a file path, the file at that path is not
    empty and holds what the handler wrote to it in this run. *)
Theorem returned_path_holds_the_written_reply (env : Collaborators)
    (audio : option CapturedAudio) (w w' : World) (path m : string) :
  voice_chat env audio w = (Returns (Some path, m), w') →
  ∃ data, data ≠ [] ∧ files w' !! path = Some data
          ∧ EvWrite path data ∈ since w w'.
Proof.
  unfold_run. intros H.
  repeat (case_match; simplify_eq/=);
    repeat match goal with
    | Hl : <[_:=_]> _ !! _ = Some _ |- _ =>
        rewrite lookup_insert_eq in Hl; simplify_eq/=
    end.
  match goal with Hc : content _ = ?body |- _ => exists body end.
  split; [discriminate|]. split.
  - now rewrite !lookup_insert_eq.
  - unfold since. simpl. rewrite <- !app_assoc, drop_app_length. set_solver.
Qed.

Lemma returned_path_witness :
  ∃ data, data ≠ [] ∧
    files (voice_chat (Scenario.lab (inr Scenario.wav_reply))
             (Some Scenario.silence) Scenario.empty_world).2
      !! "/tmp/tts_output_1700000000.wav" = Some data
    ∧ EvWrite "/tmp/tts_output_1700000000.wav" data
      ∈ since Scenario.empty_world
          (voice_chat (Scenario.lab (inr Scenario.wav_reply))
             (Some Scenario.silence) Scenario.empty_world).2.
Proof.
  apply (returned_path_holds_the_written_reply
           (Scenario.lab (inr Scenario.wav_reply)) (Some Scenario.silence)
           Scenario.empty_world _ _ msg_success).
  vm_compute. reflexivity.
Defined.



(** ** The page around the handler *)

(** X13: after any sequence of recording events exactly one of the two
    indicators is visible: "Sedang merekam..." when the last event was the
    start of a recording, "Siap merekam" otherwise (also before the first
    event). *)
Theorem indicators_follow_the_last_event (evs : list recording_event) :
  let s := after_events evs in
  ready_indicator s = negb (recording_active s)
  ∧ recording_active s
    = match last evs with Some start_recording => true | _ => false end.
Proof.
  unfold after_events. induction evs as [|ev evs _] using rev_ind.
  - split; reflexivity.
  - rewrite fold_left_app, last_snoc. now destruct ev.
Qed.

Lemma append_nil_l (s : string) : "" +:+ s = s.
Proof. reflexivity. Qed.

(** X14: the rendered status determines what was rendered: two calls of
    [update_status] give the same HTML only for the same message and the
    same kind (error, or else warning, or else success); the error flag
    overrides the warning flag. *)
Theorem update_status_is_injective (m m' : string) (e e' w w' : bool) :
  update_status m e w = update_status m' e' w' →
  m = m' ∧ e = e' ∧ (e = false → w = w').
Proof.
  unfold update_status, quote. intros H.
  destruct e, e'; [| destruct w' | destruct w | destruct w, w' ];
    rewrite ?append_cons, ?append_nil_l in H; simplify_eq;
    match goal with
    | H : _ +:+ "</div>" = _ +:+ "</div>" |- _ => apply append_inj_l in H as ->
    end;
    repeat split; try reflexivity; intros; discriminate.
Qed.

Lemma update_status_witness :
  "Siap" = "Siap" ∧ true = true ∧ (true = false → false = true).
Proof.
  apply (update_status_is_injective "Siap" "Siap" true true false true).
  reflexivity.
Defined.

(** ** The rigged laboratory meets the assumptions *)

Lemma rig_codec_saves sink opening writing upload :
  codec_saves (Scenario.rig sink None opening writing upload).
Proof.
  intros w p sr d. split; [reflexivity|]. simpl.
  rewrite lookup_insert_eq. now eexists.
Qed.

Lemma other_upload_failure_witness :
  let '(r, w') :=
    voice_chat (Scenario.lab (inl Scenario.chunked_encoding))
      (Some Scenario.silence) Scenario.empty_world in
  r = Returns (None, "🔴 Error: " +:+ exn_str Scenario.chunked_encoding)
  ∧ none_of is_output_write (since Scenario.empty_world w') = true.
Proof.
  apply (other_upload_failure_is_reported
           (Scenario.lab (inl Scenario.chunked_encoding))
           16000 (repeat 0 1600) Scenario.empty_world
           Scenario.chunked_encoding).
  - apply lab_sink_accepts.
  - apply lab_codec_saves.
  - apply lab_files_open.
  - apply lab_post_raises.
  - reflexivity.
Defined.

Lemma unreadable_clip_witness :
  let env :=
    Scenario.rig (λ _, None) None
      (λ mode, if String.eqb mode "rb" then Some Scenario.permission_denied
               else None)
      None (inr Scenario.wav_reply) in
  let '(r, w') := voice_chat env (Some Scenario.silence) Scenario.empty_world in
  r = Returns (None, "🔴 Error: " +:+ exn_str Scenario.permission_denied)
  ∧ none_of is_network_call (since Scenario.empty_world w') = true.
Proof.
  apply (unreadable_clip_is_reported_without_upload
           (Scenario.rig (λ _, None) None
              (λ mode, if String.eqb mode "rb"
                       then Some Scenario.permission_denied else None)
              None (inr Scenario.wav_reply))
           16000 (repeat 0 1600) Scenario.empty_world
           Scenario.permission_denied).
  - intros w q d. reflexivity.
  - apply rig_codec_saves.
  - intros w p. reflexivity.
  - reflexivity.
Defined.

Lemma codec_failure_witness :
  let env :=
    Scenario.rig (λ _, None) (Some Scenario.bad_dtype) (λ _, None) None
      (inr Scenario.wav_reply) in
  let '(r, w') := voice_chat env (Some Scenario.silence) Scenario.empty_world in
  r = Returns (None, "⚠️ Terjadi kesalahan: " +:+ exn_str Scenario.bad_dtype)
  ∧ none_of is_network_call (since Scenario.empty_world w') = true
  ∧ none_of is_output_write (since Scenario.empty_world w') = true.
Proof.
  apply (codec_failure_is_reported_without_upload
           (Scenario.rig (λ _, None) (Some Scenario.bad_dtype) (λ _, None) None
              (inr Scenario.wav_reply))
           16000 (repeat 0 1600) Scenario.empty_world Scenario.bad_dtype).
  - intros w q d. reflexivity.
  - intros w p sr d. reflexivity.
  - reflexivity.
Defined.

Lemma failed_output_write_witness :
  let env :=
    Scenario.rig (λ _, None) None (λ _, None) (Some Scenario.disk_full)
      (inr Scenario.wav_reply) in
  let '(res, w') := voice_chat env (Some Scenario.silence) Scenario.empty_world in
  res = Returns (None, "⚠️ Gagal menyimpan file audio respons: "
                       +:+ exn_str Scenario.disk_full)
  ∧ none_of (is_report 1 "Selesai!") (since Scenario.empty_world w') = true.
Proof.
  apply (failed_output_write_is_reported
           (Scenario.rig (λ _, None) None (λ _, None) (Some Scenario.disk_full)
              (inr Scenario.wav_reply))
           16000 (repeat 0 1600) Scenario.empty_world Scenario.wav_reply
           Scenario.disk_full).
  - intros w q d. reflexivity.
  - apply rig_codec_saves.
  - intros w p. reflexivity.
  - intros w url field name body mime timeout. reflexivity.
  - reflexivity.
  - discriminate.
  - right. split; [intros w p | intros w p data]; reflexivity.
  - reflexivity.
Defined.

Lemma failed_completion_report_witness :
  let env :=
    Scenario.rig
      (λ q, if Qeq_bool q 1 then Some Scenario.tracker_closed else None)
      None (λ _, None) None (inr Scenario.wav_reply) in
  ∃ path w',
    voice_chat env (Some Scenario.silence) Scenario.empty_world
    = (Returns (None, "⚠️ Terjadi kesalahan: "
                      +:+ exn_str Scenario.tracker_closed), w')
    ∧ files w' !! path = Some (content Scenario.wav_reply)
    ∧ EvWrite path (content Scenario.wav_reply)
      ∈ since Scenario.empty_world w'.
Proof.
  apply (failed_completion_report_hides_the_reply
           (Scenario.rig
              (λ q, if Qeq_bool q 1 then Some Scenario.tracker_closed
                    else None)
              None (λ _, None) None (inr Scenario.wav_reply))
           16000 (repeat 0 1600) Scenario.empty_world Scenario.wav_reply
           Scenario.tracker_closed).
  - intros w q d. reflexivity.
  - apply rig_codec_saves.
  - intros w p mode. reflexivity.
  - intros w p data. split; reflexivity.
  - intros w url field name body mime timeout. reflexivity.
  - reflexivity.
  - discriminate.
  - reflexivity.
Defined.

Lemma interrupt_witness :
  let '(r, w') :=
    voice_chat (Scenario.lab (inl Scenario.interrupt))
      (Some Scenario.silence) Scenario.empty_world in
  r = Escapes Scenario.interrupt
  ∧ none_of is_output_write (since Scenario.empty_world w') = true.
Proof.
  apply (interrupt_during_upload_escapes
           (Scenario.lab (inl Scenario.interrupt))
           16000 (repeat 0 1600) Scenario.empty_world Scenario.interrupt).
  - apply lab_sink_accepts.
  - apply lab_codec_saves.
  - apply lab_files_open.
  - apply lab_post_raises.
  - reflexivity.
Defined.

Lemma caught_inside_try_witness :
  ∃ r w',
    voice_chat Scenario.sink_breaks_later (Some Scenario.short_clip)
      Scenario.empty_world
    = (Returns r, w').
Proof.
  apply (exceptions_are_caught_inside_try Scenario.sink_breaks_later
           Scenario.short_clip Scenario.empty_world).
  - reflexivity.
  - repeat split.
    + intros w q d e. simpl. destruct (Qeq_bool q 0); [discriminate|].
      now intros [= <-].
    + intros w p sr d e. discriminate.
    + intros w p mode e. discriminate.
    + intros w p data e. discriminate.
    + intros w url field name body mime timeout e. discriminate.
Defined.

Lemma lost_write_witness :
  ∃ path w',
    voice_chat (Scenario.null_device (inr Scenario.wav_reply))
      (Some Scenario.silence) Scenario.empty_world
    = (Returns (None, "⚠️ File audio respons kosong atau tidak valid"), w')
    ∧ EvWrite path (content Scenario.wav_reply) ∈ since Scenario.empty_world w'
    ∧ files w' !! path = Some []
    ∧ none_of (is_report 1 "Selesai!") (since Scenario.empty_world w') = true.
Proof.
  apply (lost_write_is_reported
           (Scenario.null_device (inr Scenario.wav_reply))
           16000 (repeat 0 1600) Scenario.empty_world Scenario.wav_reply).
  - intros w q d. reflexivity.
  - intros w p sr d. split; [reflexivity|]. simpl.
    rewrite lookup_insert_eq. now eexists.
  - intros w p mode. reflexivity.
  - intros w p data. split; reflexivity.
  - intros w url field name body mime timeout. reflexivity.
  - reflexivity.
  - discriminate.
Defined.
